(** * sqlalchemy_command_helper.command_helper

    A shallow embedding of [command_helper.py] and the properties of its
    five functions: [save], [update_by_id], [update_by_params],
    [delete_by_id] and [delete_by_params].

    The module is Python code over three collaborators it does not define:
    the session object (only [session_obj.add] is called on it), the
    caller's [find_func], and the model class.  Python objects are
    references; the embedding keeps a store of model instances, a separate
    heap of the payload dictionaries the caller owns, the session's
    pending list and the clock read by [datetime.utcnow].

    [setattr] is Python's: it can raise on an instance ([__class__] set to
    something that is no class, [__dict__] set to something that is no
    dictionary, [__weakref__], a name the class refuses), and the loop of
    assignments then stops where it is, with what it assigned so far. *)

From stdpp Require Import gmap strings list fin_maps.
From Stdlib Require Import ZArith.

Local Open Scope Z_scope.
Set Warnings "-register-all".

(** ** Values *)

Definition loc := positive.

(** Python values as far as the helper can meet them: what a payload maps
    a field to, what an identifier is, what [find_func] hands back.  A
    filter spec such as [[{"id": {"$eq": _id}}]] is a literal the helper
    builds and never changes, so lists and mappings nested in a value are
    immutable here; [VObj] is a reference to a model instance. *)
Inductive value :=
| VNone
| VBool (b : bool)
| VInt (n : Z)
| VStr (s : string)
| VDatetime (t : Z)
| VList (xs : list value)
| VMap (kvs : list (string * value))
| VObj (l : loc).

(** Python's truth test, as used by [if not found_obj].  A model instance
    (a class with neither [__bool__] nor [__len__]) is true. *)
Definition truthy (v : value) : bool :=
  match v with
  | VNone => false
  | VBool b => b
  | VInt n => negb (n =? 0)
  | VStr s => negb (String.eqb s "")
  | VDatetime _ => true
  | VList xs => match xs with [] => false | _ => true end
  | VMap kvs => match kvs with [] => false | _ => true end
  | VObj _ => true
  end.

(** ** Errors *)

Inductive exn :=
| NoResultFound                  (* sqlalchemy.orm.exc.NoResultFound *)
| AttributeError (attr : string) (* setattr on a value without attributes *)
| TypeError (attr : string)      (* setattr of a special attribute to a wrong value *)
| KeyError (key : string)        (* subscript of a dict at a missing key *)
| OtherError (name : string).    (* anything else a collaborator raises *)

Inductive result (A : Type) :=
| Ok (a : A)
| Raise (e : exn).
Arguments Ok {A} a.
Arguments Raise {A} e.

(** ** State *)

(** What the collaborators see and may change: the model instances with
    their attributes, the instances registered for saving (with the
    session they were added to, in call order) and the UTC clock. *)
Record Store := mkStore {
  objects : gmap loc (gmap string value);
  pending : list (nat * value);
  now : Z
}.

(** The helper's world: the store and the caller-owned dictionaries.  A
    payload ([data: Dict]) is passed by reference, as an index in [dicts];
    [delete_by_params] writes to the dictionary it is given, so the
    identity of a payload matters. *)
Record World := mkWorld {
  store : Store;
  dicts : gmap loc (gmap string value)
}.

Definition with_objects (s : Store) (os : gmap loc (gmap string value)) : Store :=
  mkStore os (pending s) (now s).

Definition with_pending (s : Store) (p : list (nat * value)) : Store :=
  mkStore (objects s) p (now s).

Definition with_store (w : World) (s : Store) : World :=
  mkWorld s (dicts w).

Definition with_dicts (w : World) (ds : gmap loc (gmap string value)) : World :=
  mkWorld (store w) ds.

(** ** Collaborators *)

(** A call into a collaborator runs on the store and returns or raises. *)
Definition Collab (A : Type) : Type := Store → result A * Store.

(** The session object.  [session_obj.add(obj)] either raises what the
    session decides to raise, or puts [obj] on the pending list. *)
Record Session := mkSession {
  session_id : nat;
  add_raises : value → Store → option exn
}.

Definition Session_add (sess : Session) (obj : value) : Collab unit :=
  fun s =>
    match add_raises sess obj s with
    | Some e => (Raise e, s)
    | None => (Ok tt, with_pending s (pending s ++ [(session_id sess, obj)]))
    end.

(** The model class: its name, the attributes a new instance has, and the
    assignments its instances refuse (a property without a setter, a
    validator that raises, a name missing from [__slots__]), with the
    error they raise. *)
Record Model := mkModel {
  model_name : string;
  defaults : gmap string value;
  assign_raises : string → value → option exn
}.

(** [find_func(session_obj, model_cls, params)] *)
Definition FindFunc : Type := Session → Model → value → Collab value.

(** ** The helper's monad: state and exceptions *)

Definition M (A : Type) : Type := World → result A * World.

Global Instance M_ret : MRet M := fun A a w => (Ok a, w).

Global Instance M_bind : MBind M := fun A B k c w =>
  match c w with
  | (Ok a, w') => k a w'
  | (Raise e, w') => (Raise e, w')
  end.

Definition raise {A : Type} (e : exn) : M A := fun w => (Raise e, w).

(** Calling a collaborator: it works on the store, the caller's
    dictionaries are out of its reach. *)
Definition call {A : Type} (c : Collab A) : M A := fun w =>
  let (r, s) := c (store w) in (r, with_store w s).

(** ** Python primitives *)

(** [model_cls()] *)
Definition instantiate (model_cls : Model) : M value := fun w =>
  let l := fresh (dom (objects (store w))) in
  (Ok (VObj l),
   with_store w (with_objects (store w) (<[l := defaults model_cls]> (objects (store w))))).

(** The dictionary a mapping value stands for: later items win. *)
Definition dict_of_items (kvs : list (string * value)) : gmap string value :=
  foldl (fun m kv => <[fst kv := snd kv]> m) ∅ kvs.

(** What assigning [v] to the attribute [field] of an instance of [cls]
    does.  Three names are special on every Python object: [__class__]
    takes a class only, and no value here is a class; [__dict__] takes a
    dictionary only, which then replaces all instance attributes;
    [__weakref__] is not writable.  Any other name is stored, unless the
    class refuses the assignment. *)
Inductive assignment :=
| Refused (e : exn)
| Replaced (attrs : gmap string value)
| Stored.

Definition classify (cls : Model) (field : string) (v : value) : assignment :=
  if String.eqb field "__class__" then Refused (TypeError field)
  else if String.eqb field "__dict__" then
    match v with
    | VMap kvs => Replaced (dict_of_items kvs)
    | _ => Refused (TypeError field)
    end
  else if String.eqb field "__weakref__" then Refused (AttributeError field)
  else
    match assign_raises cls field v with
    | Some e => Refused e
    | None => Stored
    end.

(** [setattr(obj, field, v)], [cls] being the class of [obj] when [obj] is
    a model instance.  On a value that is no instance (a list, a number,
    a string, [None]) every assignment raises: [TypeError] for
    [__class__], [AttributeError] for any other name. *)
Definition setattr (cls : Model) (obj : value) (field : string) (v : value)
    : M unit := fun w =>
  match obj with
  | VObj l =>
      match objects (store w) !! l with
      | Some attrs =>
          match classify cls field v with
          | Refused e => (Raise e, w)
          | Replaced attrs' =>
              (Ok tt,
               with_store w (with_objects (store w) (<[l := attrs']> (objects (store w)))))
          | Stored =>
              (Ok tt,
               with_store w (with_objects (store w) (<[l := <[field := v]> attrs]> (objects (store w)))))
          end
      | None => (Raise (AttributeError field), w)
      end
  | _ =>
      if String.eqb field "__class__" then (Raise (TypeError field), w)
      else (Raise (AttributeError field), w)
  end.

(** The dictionary a reference stands for. *)
Definition dict_at (w : World) (d : loc) : gmap string value :=
  default ∅ (dicts w !! d).

(** [field in data] *)
Definition dict_contains (data : loc) (field : string) : M bool := fun w =>
  (Ok (bool_decide (is_Some (dict_at w data !! field))), w).

(** [data[field]] *)
Definition dict_getitem (data : loc) (field : string) : M value := fun w =>
  match dict_at w data !! field with
  | Some v => (Ok v, w)
  | None => (Raise (KeyError field), w)
  end.

(** A dict display [{...}]: a new dictionary. *)
Definition dict_new (m : gmap string value) : M loc := fun w =>
  let d := fresh (dom (dicts w)) in
  (Ok d, with_dicts w (<[d := m]> (dicts w))).

(** [data.update(m)]: in place, the keys of [m] win. *)
Definition dict_update (data : loc) (m : gmap string value) : M unit := fun w =>
  (Ok tt, with_dicts w (<[data := m ∪ dict_at w data]> (dicts w))).

(** [not data] for [data: Dict = None] *)
Definition not_data (data : option loc) : M bool := fun w =>
  (Ok match data with
      | None => true
      | Some d => bool_decide (size (dict_at w d) = 0%nat)
      end, w).

(** [datetime.utcnow()] *)
Definition utcnow : M value := fun w => (Ok (VDatetime (now (store w))), w).

(** [for x in xs: body] *)
Fixpoint for_each {A : Type} (xs : list A) (body : A → M unit) : M unit :=
  match xs with
  | [] => mret tt
  | x :: rest => body x ;; for_each rest body
  end.

(** ** command_helper.py *)

Section CommandHelper.

Variable find_func : FindFunc.

Definition save (session_obj : Session) (model_cls : Model)
    (fields : list string) (data : loc) : M value :=
  obj ← instantiate model_cls;
  for_each fields (fun field =>
    present ← dict_contains data field;
    if (present : bool) then
      v ← dict_getitem data field;
      setattr model_cls obj field v
    else mret tt) ;;
  call (Session_add session_obj obj) ;;
  mret obj.

(** [find_func] is asked for an instance of [model_cls]; an instance it
    returns is taken to be one, so that the class of [found_obj] is
    [model_cls]. *)
Definition update_by_params (session_obj : Session) (model_cls : Model)
    (fields : list string) (params : value) (data : loc) : M value :=
  found_obj ← call (find_func session_obj model_cls params);
  (if negb (truthy found_obj) then raise NoResultFound else mret tt) ;;
  for_each fields (fun field =>
    present ← dict_contains data field;
    if (present : bool) then
      v ← dict_getitem data field;
      setattr model_cls found_obj field v
    else mret tt) ;;
  call (Session_add session_obj found_obj) ;;
  mret found_obj.

(** [[{"id": {"$eq": _id}}]] *)
Definition id_params (_id : value) : value :=
  VList [VMap [("id"%string, VMap [("$eq"%string, _id)])]].

Definition update_by_id (session_obj : Session) (model_cls : Model)
    (fields : list string) (_id : value) (data : loc) : M value :=
  update_by_params session_obj model_cls fields (id_params _id) data.

(** [{"removed": True, "removed_at": t}] *)
Definition removal (t : value) : gmap string value :=
  <["removed"%string := VBool true]> (<["removed_at"%string := t]> ∅).

Definition delete_by_params (session_obj : Session) (model_cls : Model)
    (fields : list string) (params : value) (data : option loc) : M value :=
  empty ← not_data data;
  data' ← (if (empty : bool) then
             t ← utcnow;
             dict_new (removal t)
           else
             match data with
             | Some d => t ← utcnow; dict_update d (removal t) ;; mret d
             | None => raise (AttributeError "update")
             end);
  update_by_params session_obj model_cls fields params data'.

Definition delete_by_id (session_obj : Session) (model_cls : Model)
    (fields : list string) (_id : value) (data : option loc) : M value :=
  delete_by_params session_obj model_cls fields (id_params _id) data.

End CommandHelper.

(** ** The assignment loop, and what it computes

    [save] and [update_by_params] run the same loop over the whitelist.
    [assign_all cls D fields attrs] is that loop on the attributes of one
    instance, as a function: how the loop ends, and the attributes it
    leaves.  The loop stops at the first assignment that raises and keeps
    what it assigned before. *)

Definition assign_loop (cls : Model) (obj : value) (fields : list string)
    (data : loc) : M unit :=
  for_each fields (fun field =>
    present ← dict_contains data field;
    if (present : bool) then
      v ← dict_getitem data field;
      setattr cls obj field v
    else mret tt).

Fixpoint assign_all (cls : Model) (D : gmap string value) (fields : list string)
    (attrs : gmap string value) : result unit * gmap string value :=
  match fields with
  | [] => (Ok tt, attrs)
  | field :: rest =>
      match D !! field with
      | None => assign_all cls D rest attrs
      | Some v =>
          match classify cls field v with
          | Refused e => (Raise e, attrs)
          | Replaced attrs' => assign_all cls D rest attrs'
          | Stored => assign_all cls D rest (<[field := v]> attrs)
          end
      end
  end.

Definition assigned (cls : Model) (D : gmap string value) (fields : list string)
    (attrs : gmap string value) : gmap string value :=
  snd (assign_all cls D fields attrs).

(** Every whitelisted key of [D] is an ordinary attribute that the class
    lets be assigned. *)
Definition all_stored (cls : Model) (D : gmap string value)
    (fields : list string) : Prop :=
  ∀ (f : string) (v : value),
    f ∈ fields → D !! f = Some v → classify cls f v = Stored.

(** No whitelisted key of [D] replaces the instance dictionary. *)
Definition none_replaced (cls : Model) (D : gmap string value)
    (fields : list string) : Prop :=
  ∀ (f : string) (v : value) (m : gmap string value),
    f ∈ fields → D !! f = Some v → classify cls f v ≠ Replaced m.

(** The store after the whitelisted keys of dictionary [D] were assigned
    to the instance at [l] whose attributes were [attrs]. *)
Definition store_assigned (s : Store) (l : loc) (cls : Model)
    (D : gmap string value) (fields : list string)
    (attrs : gmap string value) : Store :=
  with_objects s (<[l := assigned cls D fields attrs]> (objects s)).

(** The outcome of [session_obj.add(obj)] followed by [return obj]. *)
Definition add_and_return (session_obj : Session) (obj : value) (w : World)
    : result value * World :=
  match add_raises session_obj obj (store w) with
  | Some e => (Raise e, w)
  | None =>
      (Ok obj,
       with_store w
         (with_pending (store w) (pending (store w) ++ [(session_id session_obj, obj)])))
  end.

(** A computation that leaves the caller's dictionaries as they are. *)
Definition keeps_dicts {A : Type} (c : M A) : Prop :=
  ∀ w : World, dicts (snd (c w)) = dicts w.

(** The dictionary [delete_by_params] hands to the update path, and what
    it holds then: a new dictionary when [data] is absent or empty, the
    caller's own dictionary otherwise. *)
Definition delete_target (w : World) (data : option loc) : loc :=
  match data with
  | None => fresh (dom (dicts w))
  | Some d =>
      if bool_decide (size (dict_at w d) = 0%nat) then fresh (dom (dicts w)) else d
  end.

Definition delete_payload (w : World) (data : option loc) : gmap string value :=
  match data with
  | None => removal (VDatetime (now (store w)))
  | Some d =>
      if bool_decide (size (dict_at w d) = 0%nat)
      then removal (VDatetime (now (store w)))
      else removal (VDatetime (now (store w))) ∪ dict_at w d
  end.

Definition delete_world (w : World) (data : option loc) : World :=
  with_dicts w (<[delete_target w data := delete_payload w data]> (dicts w)).

(** ** Sample collaborators and worlds *)

(** A session that takes every instance, and one that refuses all. *)
Definition accepting_session (n : nat) : Session :=
  mkSession n (fun _ _ => None).

Definition refusing_session (n : nat) (e : exn) : Session :=
  mkSession n (fun _ _ => Some e).

Definition has_id (n : Z) (attrs : gmap string value) : bool :=
  match attrs !! "id"%string with
  | Some (VInt m) => m =? n
  | _ => false
  end.

(** A find function that understands [[{"id": {"$eq": n}}]] only and
    returns the first instance with that id, or [None]. *)
Definition find_by_id : FindFunc := fun _ _ params s =>
  match params with
  | VList [VMap [(k, VMap [(op, VInt n)])]] =>
      if (String.eqb k "id" && String.eqb op "$eq")%bool then
        match List.filter (fun p => has_id n (snd p)) (map_to_list (objects s)) with
        | (l, _) :: _ => (Ok (VObj l), s)
        | [] => (Ok VNone, s)
        end
      else (Raise (OtherError "unsupported filter"), s)
  | _ => (Raise (OtherError "unsupported filter"), s)
  end.

(** A find function whose query fails. *)
Definition find_broken : FindFunc := fun _ _ _ s =>
  (Raise (OtherError "OperationalError"), s).

Definition User : Model :=
  mkModel "User" {[ "id"%string := VNone; "name"%string := VNone ]}
    (fun _ _ => None).

(** A model whose [id] is a property without a setter. *)
Definition Account : Model :=
  mkModel "Account" {[ "id"%string := VNone; "name"%string := VNone ]}
    (fun field _ =>
       if String.eqb field "id" then Some (AttributeError "id") else None).

Definition user_fields : list string :=
  ["name"; "removed"; "removed_at"]%string.

(** One user, [{id: 7, name: "a", removed: False}], the clock at 1000,
    and two dictionaries of the caller: [{"removed": False, "note": "x",
    "name": "b"}] at 1 and [{}] at 2. *)
Definition world0 : World :=
  mkWorld
    (mkStore
       {[ 1%positive :=
            {[ "id"%string := VInt 7; "name"%string := VStr "a";
               "removed"%string := VBool false ]} ]}
       [] 1000)
    {[ 1%positive :=
         {[ "removed"%string := VBool false; "note"%string := VStr "x";
            "name"%string := VStr "b" ]};
       2%positive := ∅ ]}.


(** A value that is no model instance: [setattr] on it raises. *)
Definition not_instance (v : value) : Prop :=
  match v with
  | VObj _ => False
  | _ => True
  end.


(** A find function that hands back a list of instances, as a query
    ending in [.all()] would. *)
Definition find_all : FindFunc := fun _ _ _ s =>
  (Ok (VList (map (fun p => VObj (fst p)) (map_to_list (objects s)))), s).

(** [find_by_id] on a slow connection: the clock has moved by the time it
    returns. *)
Definition find_by_id_slow : FindFunc := fun session_obj model_cls params s =>
  find_by_id session_obj model_cls params (mkStore (objects s) (pending s) (now s + 5)).


(** [world0] with two more dictionaries of the caller:
    [{"__class__": "b", "name": "n"}] at 3 and [{"__dict__": {}}] at 4. *)
Definition world_special : World :=
  with_dicts world0
    (<[3%positive := {[ "__class__"%string := VStr "b"; "name"%string := VStr "n" ]}]>
       (<[4%positive := {[ "__dict__"%string := VMap [] ]}]> (dicts world0))).

(** How a function ends once its loop is over: an error of the loop is
    the error of the function, otherwise [session_obj.add(obj)] runs and
    [obj] is returned. *)
Definition after_loop (session_obj : Session) (obj : value) (r : result unit)
    (w : World) : result value * World :=
  match r with
  | Ok _ => add_and_return session_obj obj w
  | Raise e => (Raise e, w)
  end.

(** The error of [setattr] on a value that is no instance. *)
Definition non_instance_error (field : string) : exn :=
  if String.eqb field "__class__" then TypeError field else AttributeError field.

(** * Properties *)

(** ** Running the monad *)

Lemma bind_ok {A B : Type} (c : M A) (k : A → M B) (w w' : World) (a : A) :
  c w = (Ok a, w') → (c ≫= k) w = k a w'.
Proof. intros H. unfold mbind, M_bind. by rewrite H. Qed.

Lemma bind_raise {A B : Type} (c : M A) (k : A → M B) (w w' : World) (e : exn) :
  c w = (Raise e, w') → (c ≫= k) w = (Raise e, w').
Proof. intros H. unfold mbind, M_bind. by rewrite H. Qed.

Lemma call_ok {A : Type} (c : Collab A) (w : World) (a : A) (s : Store) :
  c (store w) = (Ok a, s) → call c w = (Ok a, with_store w s).
Proof. intros H. unfold call. by rewrite H. Qed.

Lemma call_raise {A : Type} (c : Collab A) (w : World) (e : exn) (s : Store) :
  c (store w) = (Raise e, s) → call c w = (Raise e, with_store w s).
Proof. intros H. unfold call. by rewrite H. Qed.

Lemma with_store_id (w : World) : with_store w (store w) = w.
Proof. by destruct w. Qed.

Lemma with_objects_id (s : Store) : with_objects s (objects s) = s.
Proof. by destruct s. Qed.

(** ** The assignment loop *)

Lemma all_stored_none_replaced cls D fields :
  all_stored cls D fields → none_replaced cls D fields.
Proof. intros Hall f v m Hf HD Hm. by rewrite (Hall f v Hf HD) in Hm. Qed.

Lemma all_stored_tail cls D (g : string) fields :
  all_stored cls D (g :: fields) → all_stored cls D fields.
Proof. intros Hall f v Hf. apply Hall, elem_of_cons. by right. Qed.

Lemma none_replaced_tail cls D (g : string) fields :
  none_replaced cls D (g :: fields) → none_replaced cls D fields.
Proof. intros Hnone f v m Hf. apply Hnone, elem_of_cons. by right. Qed.

Lemma assign_all_nothing cls D fields attrs :
  (∀ f : string, f ∈ fields → D !! f = None) →
  assign_all cls D fields attrs = (Ok tt, attrs).
Proof.
  induction fields as [|g fields IH]; intros HD; [done|].
  cbn. rewrite (HD g) by (apply elem_of_cons; by left).
  apply IH. intros f Hf. apply HD, elem_of_cons. by right.
Qed.

Lemma assigned_untouched cls D fields attrs :
  (∀ f : string, f ∈ fields → D !! f = None) → assigned cls D fields attrs = attrs.
Proof. intros HD. unfold assigned. by rewrite assign_all_nothing. Qed.

Lemma assign_all_stored_ok cls D fields attrs :
  all_stored cls D fields → fst (assign_all cls D fields attrs) = Ok tt.
Proof.
  revert attrs. induction fields as [|g fields IH]; intros attrs Hall; [done|].
  cbn. destruct (D !! g) as [v|] eqn:Hg.
  - rewrite (Hall g v) by (done || apply elem_of_cons; by left).
    apply IH. by eapply all_stored_tail.
  - apply IH. by eapply all_stored_tail.
Qed.

Lemma assigned_notin cls D fields attrs (f : string) :
  none_replaced cls D fields →
  f ∉ fields → assigned cls D fields attrs !! f = attrs !! f.
Proof.
  unfold assigned. revert attrs.
  induction fields as [|g fields IH]; intros attrs Hnone Hf; [done|].
  apply not_elem_of_cons in Hf as [Hne Hf].
  pose proof (none_replaced_tail _ _ _ _ Hnone) as Htail.
  cbn. destruct (D !! g) as [v|] eqn:Hg; [|by apply IH].
  destruct (classify cls g v) as [e|m|] eqn:Hc.
  - done.
  - exfalso. eapply (Hnone g v m); [apply elem_of_cons; by left|done..].
  - rewrite IH by done. by rewrite lookup_insert_ne.
Qed.

Lemma assigned_absent cls D fields attrs (f : string) :
  none_replaced cls D fields →
  D !! f = None → assigned cls D fields attrs !! f = attrs !! f.
Proof.
  unfold assigned. intros Hnone HD. revert attrs Hnone.
  induction fields as [|g fields IH]; intros attrs Hnone; [done|].
  pose proof (none_replaced_tail _ _ _ _ Hnone) as Htail.
  cbn. destruct (D !! g) as [v|] eqn:Hg; [|by apply IH].
  destruct (classify cls g v) as [e|m|] eqn:Hc.
  - done.
  - exfalso. eapply (Hnone g v m); [apply elem_of_cons; by left|done..].
  - rewrite IH by done. rewrite lookup_insert_ne; [done|]. intros ->. congruence.
Qed.

Lemma assigned_present cls D fields attrs (f : string) (v : value) :
  all_stored cls D fields →
  f ∈ fields → D !! f = Some v → assigned cls D fields attrs !! f = Some v.
Proof.
  intros Hall Hf HD. revert attrs Hall Hf.
  induction fields as [|g fields IH]; intros attrs Hall Hf;
    [by apply elem_of_nil in Hf|].
  pose proof (all_stored_tail _ _ _ _ Hall) as Htail.
  destruct (decide (f ∈ fields)) as [Hin|Hout].
  - unfold assigned in *. cbn. destruct (D !! g) as [x|] eqn:Hg; [|by apply IH].
    rewrite (Hall g x) by (done || apply elem_of_cons; by left). by apply IH.
  - apply elem_of_cons in Hf as [->|Hf]; [|done].
    pose proof (assigned_notin cls D fields (<[g := v]> attrs) g
                  (all_stored_none_replaced _ _ _ Htail) Hout) as Hlook.
    unfold assigned in *. cbn. rewrite HD.
    rewrite (Hall g v) by (done || apply elem_of_cons; by left).
    rewrite Hlook. apply lookup_insert_eq.
Qed.

(** On an instance that exists, the loop is [assign_all] on the attributes
    of that instance, and changes that instance only. *)
Lemma assign_loop_obj (cls : Model) (l : loc) (fields : list string) (data : loc) :
  ∀ (w : World) (attrs : gmap string value),
    objects (store w) !! l = Some attrs →
    assign_loop cls (VObj l) fields data w =
      (fst (assign_all cls (dict_at w data) fields attrs),
       with_store w (with_objects (store w)
         (<[l := assigned cls (dict_at w data) fields attrs]> (objects (store w))))).
Proof.
  unfold assigned.
  induction fields as [|f fields IH]; intros w attrs Hl.
  - cbn. unfold mret, M_ret. f_equal.
    rewrite insert_id by done. by rewrite with_objects_id, with_store_id.
  - unfold assign_loop in *. cbn [for_each assign_all].
    unfold mbind at 1, M_bind at 1. unfold mbind at 1, M_bind at 1.
    unfold dict_contains at 1.
    destruct (dict_at w data !! f) as [v|] eqn:Hf.
    + rewrite bool_decide_eq_true_2 by eauto.
      unfold mbind at 1, M_bind at 1. unfold dict_getitem at 1. rewrite Hf.
      unfold setattr at 1. rewrite Hl.
      destruct (classify cls f v) as [e|m|] eqn:Hc.
      * cbn. f_equal. rewrite insert_id by done.
        by rewrite with_objects_id, with_store_id.
      * erewrite IH by (cbn; apply lookup_insert_eq).
        f_equal. cbn. unfold with_store, with_objects, dict_at; cbn.
        by rewrite insert_insert_eq.
      * erewrite IH by (cbn; apply lookup_insert_eq).
        f_equal. cbn. unfold with_store, with_objects, dict_at; cbn.
        by rewrite insert_insert_eq.
    + rewrite bool_decide_eq_false_2 by (intros [? ?]; congruence).
      unfold mret at 1, M_ret at 1. by apply IH.
Qed.
(** ** What each function computes *)

Section Runs.

Variable find_func : FindFunc.
Variables (session_obj : Session) (model_cls : Model).

Lemma add_and_return_run (obj : value) (w : World) :
  (call (Session_add session_obj obj) ;; mret obj) w =
    add_and_return session_obj obj w.
Proof.
  unfold add_and_return, mbind, M_bind, call, Session_add.
  destruct (add_raises session_obj obj (store w)); [|done].
  by rewrite with_store_id.
Qed.

Lemma after_loop_run (obj : value) (c : M unit) (w w1 : World) (r : result unit) :
  c w = (r, w1) →
  (c ;; call (Session_add session_obj obj) ;; mret obj) w =
    after_loop session_obj obj r w1.
Proof.
  intros Hc. unfold mbind at 1, M_bind at 1. rewrite Hc.
  destruct r as [[]|e]; [|done]. apply add_and_return_run.
Qed.

Lemma save_run (fields : list string) (data : loc) (w : World) :
  save session_obj model_cls fields data w =
    let l := fresh (dom (objects (store w))) in
    after_loop session_obj (VObj l)
      (fst (assign_all model_cls (dict_at w data) fields (defaults model_cls)))
      (with_store w
         (store_assigned (store w) l model_cls (dict_at w data) fields
            (defaults model_cls))).
Proof.
  unfold save. cbn zeta.
  erewrite bind_ok by reflexivity.
  change (for_each fields _) with
    (assign_loop model_cls (VObj (fresh (dom (objects (store w))))) fields data).
  erewrite after_loop_run; cycle 1.
  { apply assign_loop_obj. cbn. apply lookup_insert_eq. }
  f_equal. unfold store_assigned, with_store, with_objects, dict_at; cbn.
  by rewrite insert_insert_eq.
Qed.

Lemma update_by_params_find_raises (fields : list string) (params : value)
    (data : loc) (w : World) (e : exn) (s1 : Store) :
  find_func session_obj model_cls params (store w) = (Raise e, s1) →
  update_by_params find_func session_obj model_cls fields params data w =
    (Raise e, with_store w s1).
Proof.
  intros Hfind. unfold update_by_params.
  apply bind_raise. by apply call_raise.
Qed.

Lemma update_by_params_not_found (fields : list string) (params : value)
    (data : loc) (w : World) (v : value) (s1 : Store) :
  find_func session_obj model_cls params (store w) = (Ok v, s1) →
  truthy v = false →
  update_by_params find_func session_obj model_cls fields params data w =
    (Raise NoResultFound, with_store w s1).
Proof.
  intros Hfind Hv. unfold update_by_params.
  erewrite bind_ok by (by apply call_ok).
  rewrite Hv. by apply bind_raise.
Qed.

Lemma update_by_params_found (fields : list string) (params : value)
    (data : loc) (w : World) (l : loc) (attrs : gmap string value) (s1 : Store) :
  find_func session_obj model_cls params (store w) = (Ok (VObj l), s1) →
  objects s1 !! l = Some attrs →
  update_by_params find_func session_obj model_cls fields params data w =
    after_loop session_obj (VObj l)
      (fst (assign_all model_cls (dict_at w data) fields attrs))
      (with_store w (store_assigned s1 l model_cls (dict_at w data) fields attrs)).
Proof.
  intros Hfind Hl. unfold update_by_params.
  erewrite bind_ok by (by apply call_ok).
  cbn [truthy negb]. erewrite bind_ok by reflexivity.
  change (for_each fields _) with (assign_loop model_cls (VObj l) fields data).
  by erewrite after_loop_run by (by apply assign_loop_obj).
Qed.

(** Composing the payload of a delete: the dictionary handed to the
    update path and the world it is handed in. *)
Lemma delete_by_params_no_data (fields : list string) (params : value) (w : World) :
  delete_by_params find_func session_obj model_cls fields params None w =
    let d := fresh (dom (dicts w)) in
    update_by_params find_func session_obj model_cls fields params d
      (with_dicts w (<[d := removal (VDatetime (now (store w)))]> (dicts w))).
Proof. reflexivity. Qed.

Lemma delete_by_params_empty_data (fields : list string) (params : value)
    (d0 : loc) (w : World) :
  size (dict_at w d0) = 0%nat →
  delete_by_params find_func session_obj model_cls fields params (Some d0) w =
    delete_by_params find_func session_obj model_cls fields params None w.
Proof.
  intros Hempty. unfold delete_by_params.
  unfold mbind at 1 3, M_bind at 1 3. unfold not_data.
  by rewrite bool_decide_eq_true_2.
Qed.

Lemma delete_by_params_some_data (fields : list string) (params : value)
    (d : loc) (w : World) :
  size (dict_at w d) ≠ 0%nat →
  delete_by_params find_func session_obj model_cls fields params (Some d) w =
    update_by_params find_func session_obj model_cls fields params d
      (with_dicts w (<[d := removal (VDatetime (now (store w))) ∪ dict_at w d]> (dicts w))).
Proof.
  intros Hne. unfold delete_by_params.
  unfold mbind at 1, M_bind at 1. unfold not_data.
  by rewrite bool_decide_eq_false_2.
Qed.

Lemma delete_by_params_run (fields : list string) (params : value)
    (data : option loc) (w : World) :
  delete_by_params find_func session_obj model_cls fields params data w =
    update_by_params find_func session_obj model_cls fields params
      (delete_target w data) (delete_world w data).
Proof.
  unfold delete_world, delete_target, delete_payload.
  destruct data as [d|]; [|apply delete_by_params_no_data].
  case_bool_decide as Hsize.
  - rewrite delete_by_params_empty_data by done. apply delete_by_params_no_data.
  - by apply delete_by_params_some_data.
Qed.

Lemma dict_at_delete_world (data : option loc) (w : World) :
  dict_at (delete_world w data) (delete_target w data) = delete_payload w data.
Proof. unfold dict_at, delete_world; cbn. by rewrite lookup_insert_eq. Qed.

End Runs.

(** ** Frames: who touches what *)

Lemma add_and_return_objects (session_obj : Session) (obj : value) (w : World) :
  objects (store (snd (add_and_return session_obj obj w))) = objects (store w).
Proof. unfold add_and_return. by destruct (add_raises _ _ _). Qed.

Lemma add_and_return_dicts (session_obj : Session) (obj : value) (w : World) :
  dicts (snd (add_and_return session_obj obj w)) = dicts w.
Proof. unfold add_and_return. by destruct (add_raises _ _ _). Qed.

Lemma after_loop_objects (session_obj : Session) (obj : value) (r : result unit)
    (w : World) :
  objects (store (snd (after_loop session_obj obj r w))) = objects (store w).
Proof. destruct r; [apply add_and_return_objects|done]. Qed.

Lemma after_loop_ok (session_obj : Session) (obj : value) (w : World) :
  after_loop session_obj obj (Ok tt) w = add_and_return session_obj obj w.
Proof. reflexivity. Qed.

Lemma keeps_dicts_ret {A : Type} (a : A) : keeps_dicts (mret a).
Proof. by intros w. Qed.

Lemma keeps_dicts_raise {A : Type} (e : exn) : keeps_dicts (@raise A e).
Proof. by intros w. Qed.

Lemma keeps_dicts_bind {A B : Type} (c : M A) (k : A → M B) :
  keeps_dicts c → (∀ a, keeps_dicts (k a)) → keeps_dicts (c ≫= k).
Proof.
  intros Hc Hk w. unfold mbind, M_bind.
  specialize (Hc w). destruct (c w) as [[a|e] w1]; cbn in *; [|done].
  by rewrite Hk.
Qed.

Lemma keeps_dicts_call {A : Type} (c : Collab A) : keeps_dicts (call c).
Proof. intros w. unfold call. by destruct (c (store w)). Qed.

Lemma keeps_dicts_setattr (cls : Model) (obj : value) (field : string) (v : value) :
  keeps_dicts (setattr cls obj field v).
Proof.
  intros w. unfold setattr.
  destruct obj; try by destruct (String.eqb field "__class__").
  destruct (objects (store w) !! l); [|done]. by destruct (classify cls field v).
Qed.

Lemma keeps_dicts_dict_contains (data : loc) (field : string) :
  keeps_dicts (dict_contains data field).
Proof. by intros w. Qed.

Lemma keeps_dicts_dict_getitem (data : loc) (field : string) :
  keeps_dicts (dict_getitem data field).
Proof. intros w. unfold dict_getitem. by destruct (dict_at w data !! field). Qed.

Lemma keeps_dicts_for_each {A : Type} (xs : list A) (body : A → M unit) :
  (∀ x, keeps_dicts (body x)) → keeps_dicts (for_each xs body).
Proof.
  intros Hbody. induction xs as [|x xs IH]; cbn [for_each].
  - apply keeps_dicts_ret.
  - apply keeps_dicts_bind; [apply Hbody|intros _; apply IH].
Qed.

Create HintDb frame.
#[export] Hint Resolve keeps_dicts_ret keeps_dicts_raise keeps_dicts_call
  keeps_dicts_setattr keeps_dicts_dict_contains keeps_dicts_dict_getitem : frame.

Ltac frame_step :=
  first [ apply keeps_dicts_bind; [|intros ?]
        | apply keeps_dicts_for_each; intros ?
        | match goal with |- keeps_dicts (if ?b then _ else _) => destruct b end
        | solve [auto with frame] ].

(** The update path never writes to a dictionary: the payload it was
    given is only read. *)
Lemma update_by_params_keeps_dicts find_func session_obj model_cls fields params data :
  keeps_dicts (update_by_params find_func session_obj model_cls fields params data).
Proof. unfold update_by_params. repeat frame_step. Qed.


(** ** The removal payload *)

Lemma removal_removed (t : value) :
  removal t !! "removed"%string = Some (VBool true).
Proof. unfold removal. apply lookup_insert_eq. Qed.

Lemma removal_removed_at (t : value) :
  removal t !! "removed_at"%string = Some t.
Proof. unfold removal. rewrite lookup_insert_ne by done. apply lookup_insert_eq. Qed.

Lemma removal_other (t : value) (k : string) :
  k ≠ "removed"%string → k ≠ "removed_at"%string → removal t !! k = None.
Proof.
  intros H1 H2. unfold removal.
  rewrite !lookup_insert_ne by done. apply lookup_empty.
Qed.

Lemma removal_merge_removed (t : value) (m : gmap string value) :
  (removal t ∪ m) !! "removed"%string = Some (VBool true).
Proof. apply lookup_union_Some_l, removal_removed. Qed.

Lemma removal_merge_removed_at (t : value) (m : gmap string value) :
  (removal t ∪ m) !! "removed_at"%string = Some t.
Proof. apply lookup_union_Some_l, removal_removed_at. Qed.

Lemma removal_merge_other (t : value) (m : gmap string value) (k : string) :
  k ≠ "removed"%string → k ≠ "removed_at"%string → (removal t ∪ m) !! k = m !! k.
Proof. intros H1 H2. apply lookup_union_r. by apply removal_other. Qed.

Lemma dict_at_some (w : World) (d : loc) (m : gmap string value) :
  dicts w !! d = Some m → dict_at w d = m.
Proof. intros H. unfold dict_at. by rewrite H. Qed.

(** * The claims *)

(** C1.  When [find_func] returns a falsy result, [update_by_params]
    raises [NoResultFound] and leaves the world exactly as [find_func]
    left it: no attribute of any instance was set and nothing was added to
    the session.  The same holds for [update_by_id], and for
    [delete_by_params] and [delete_by_id], which reach the same path (their
    store is the one [find_func] left as well). *)
Theorem not_found_raises_without_effect
    (find_func : FindFunc) (session_obj : Session) (model_cls : Model)
    (fields : list string) (params : value) (data : loc) (extra : option loc)
    (w : World) (v : value) (s1 : Store) :
  find_func session_obj model_cls params (store w) = (Ok v, s1) →
  truthy v = false →
  update_by_params find_func session_obj model_cls fields params data w
    = (Raise NoResultFound, with_store w s1)
  ∧ (∀ _id, params = id_params _id →
       update_by_id find_func session_obj model_cls fields _id data w
         = (Raise NoResultFound, with_store w s1))
  ∧ (∃ w', delete_by_params find_func session_obj model_cls fields params extra w
             = (Raise NoResultFound, w')
           ∧ store w' = s1)
  ∧ (∀ _id, params = id_params _id →
       ∃ w', delete_by_id find_func session_obj model_cls fields _id extra w
               = (Raise NoResultFound, w')
             ∧ store w' = s1).
Proof.
  intros Hfind Hv.
  assert (Hdel : ∃ w', delete_by_params find_func session_obj model_cls fields
                         params extra w = (Raise NoResultFound, w')
                       ∧ store w' = s1).
  { rewrite delete_by_params_run. eexists.
    split; [by eapply update_by_params_not_found|reflexivity]. }
  split; [by eapply update_by_params_not_found|].
  split; [intros _id ->; by eapply update_by_params_not_found|].
  split; [done|]. by intros _id ->.
Qed.

Lemma not_found_raises_without_effect_witness :
  update_by_params find_by_id (accepting_session 0) User user_fields
      (id_params (VInt 8)) 1%positive world0
    = (Raise NoResultFound, world0).
Proof.
  refine (proj1 (not_found_raises_without_effect find_by_id (accepting_session 0)
                   User user_fields (id_params (VInt 8)) 1%positive None world0
                   VNone (store world0) _ _)).
  - vm_compute. reflexivity.
  - reflexivity.
Defined.

(** C2, as the claim has it, fails.  The whitelist [["name"; "__class__"]]
    with the payload [{"__class__": "b", "name": "n"}] makes [save] raise
    [TypeError] at the second name, with a session that takes everything:
    [__class__] can only be set to a class.  The name is never set to the
    payload's value, the error is not the session's, and the instance is
    not added. *)
Lemma save_raises_on_refused_assignment :
  ¬ (∀ (session_obj : Session) (model_cls : Model) (fields : list string)
       (data : loc) (w : World),
       let l := fresh (dom (objects (store w))) in
       objects (store w) !! l = None
       ∧ ∃ attrs : gmap string value,
           (∀ (f : string) (v : value),
              f ∈ fields → dict_at w data !! f = Some v → attrs !! f = Some v)
           ∧ (∀ f : string,
                f ∈ fields → dict_at w data !! f = None →
                attrs !! f = defaults model_cls !! f)
           ∧ let s1 := with_objects (store w) (<[l := attrs]> (objects (store w))) in
             save session_obj model_cls fields data w =
               match add_raises session_obj (VObj l) s1 with
               | None =>
                   (Ok (VObj l),
                    with_store w
                      (with_pending s1
                         (pending s1 ++ [(session_id session_obj, VObj l)])))
               | Some e => (Raise e, with_store w s1)
               end).
Proof.
  intros Hclaim.
  destruct (Hclaim (accepting_session 0) User ["name"; "__class__"]%string
              3%positive world_special)
    as (_ & attrs & _ & _ & Hrun).
  cbn zeta in Hrun. cbn [accepting_session add_raises] in Hrun.
  apply (f_equal fst) in Hrun. cbn [fst] in Hrun.
  vm_compute in Hrun. discriminate Hrun.
Qed.

(** C2, amended.  Let every whitelisted key of the payload be an ordinary
    attribute that the model lets be assigned: none of [__class__],
    [__dict__], [__weakref__], and no assignment the class refuses.  Then
    [save] makes a new instance (its reference was free before the
    call).  Every whitelisted name that is a key of the payload holds the
    payload's value, every whitelisted name the payload lacks holds the
    model's default.  The only thing that can go wrong is the session's
    own [add]: if it takes the instance, [save] returns the instance and
    the instance is on the session's pending list; if it raises, that is
    the error of [save]. *)
Theorem save_creates_whitelisted_record
    (session_obj : Session) (model_cls : Model)
    (fields : list string) (data : loc) (w : World) :
  all_stored model_cls (dict_at w data) fields →
  let l := fresh (dom (objects (store w))) in
  objects (store w) !! l = None
  ∧ ∃ attrs : gmap string value,
      (∀ (f : string) (v : value),
         f ∈ fields → dict_at w data !! f = Some v → attrs !! f = Some v)
      ∧ (∀ f : string,
           f ∈ fields → dict_at w data !! f = None →
           attrs !! f = defaults model_cls !! f)
      ∧ let s1 := with_objects (store w) (<[l := attrs]> (objects (store w))) in
        save session_obj model_cls fields data w =
          match add_raises session_obj (VObj l) s1 with
          | None =>
              (Ok (VObj l),
               with_store w
                 (with_pending s1 (pending s1 ++ [(session_id session_obj, VObj l)])))
          | Some e => (Raise e, with_store w s1)
          end.
Proof.
  intros Hall l. split.
  { apply not_elem_of_dom, is_fresh. }
  exists (assigned model_cls (dict_at w data) fields (defaults model_cls)).
  split; [intros f v; by apply assigned_present|].
  split.
  { intros f _. by apply assigned_absent, all_stored_none_replaced. }
  cbn zeta. rewrite save_run. cbn zeta.
  rewrite assign_all_stored_ok by done. reflexivity.
Qed.

Lemma save_creates_whitelisted_record_witness :
  ∃ attrs : gmap string value,
    attrs !! "name"%string = Some (VStr "b")
    ∧ attrs !! "removed_at"%string = None
    ∧ save (accepting_session 0) User user_fields 1%positive world0 =
        (Ok (VObj 2%positive),
         with_store world0
           (mkStore (<[2%positive := attrs]> (objects (store world0)))
              [(0%nat, VObj 2%positive)] 1000)).
Proof.
  destruct (save_creates_whitelisted_record (accepting_session 0) User
              user_fields 1%positive world0)
    as (_ & attrs & Hpresent & Hdefault & Hrun).
  - intros f v Hf _. unfold user_fields in Hf.
    rewrite !elem_of_cons, elem_of_nil in Hf.
    destruct Hf as [->|[->|[->|[]]]]; reflexivity.
  - exists attrs. split; [|split].
    + apply Hpresent; [|vm_compute; reflexivity].
      unfold user_fields. rewrite !elem_of_cons. tauto.
    + rewrite Hdefault; [vm_compute; reflexivity| |vm_compute; reflexivity].
      unfold user_fields. rewrite !elem_of_cons. tauto.
    + exact Hrun.
Defined.




(** C4.  [delete_by_id] without extra data builds a new dictionary that
    holds [removed = True] and [removed_at = T] and nothing else, [T] being
    the clock at the moment of the call, and hands it to
    [update_by_params] with the filter [[{"id": {"$eq": _id}}]]. *)
Theorem delete_by_id_applies_removal_payload
    (find_func : FindFunc) (session_obj : Session) (model_cls : Model)
    (fields : list string) (_id : value) (w : World) :
  let d := fresh (dom (dicts w)) in
  ∃ payload : gmap string value,
    payload !! "removed"%string = Some (VBool true)
    ∧ payload !! "removed_at"%string = Some (VDatetime (now (store w)))
    ∧ (∀ k : string,
         k ≠ "removed"%string → k ≠ "removed_at"%string → payload !! k = None)
    ∧ dicts w !! d = None
    ∧ delete_by_id find_func session_obj model_cls fields _id None w =
        update_by_params find_func session_obj model_cls fields (id_params _id) d
          (with_dicts w (<[d := payload]> (dicts w))).
Proof.
  intros d. exists (removal (VDatetime (now (store w)))).
  split; [apply removal_removed|].
  split; [apply removal_removed_at|].
  split; [apply removal_other|].
  split; [apply not_elem_of_dom, is_fresh|].
  unfold delete_by_id. apply delete_by_params_no_data.
Qed.

(** C5.  With a non-empty dictionary of extra data, [delete_by_params]
    hands that dictionary to the update path after writing [removed = True]
    and [removed_at = T] into it, [T] being the clock at the moment of the
    call: whatever the caller had under these two keys is overwritten and
    every other key keeps its value.  [delete_by_id] does the same. *)
Theorem delete_overrides_removal_keys
    (find_func : FindFunc) (session_obj : Session) (model_cls : Model)
    (fields : list string) (params : value) (d : loc)
    (m : gmap string value) (w : World) :
  dicts w !! d = Some m →
  m ≠ ∅ →
  ∃ payload : gmap string value,
    payload !! "removed"%string = Some (VBool true)
    ∧ payload !! "removed_at"%string = Some (VDatetime (now (store w)))
    ∧ (∀ k : string,
         k ≠ "removed"%string → k ≠ "removed_at"%string → payload !! k = m !! k)
    ∧ delete_by_params find_func session_obj model_cls fields params (Some d) w =
        update_by_params find_func session_obj model_cls fields params d
          (with_dicts w (<[d := payload]> (dicts w)))
    ∧ (∀ _id, params = id_params _id →
         delete_by_id find_func session_obj model_cls fields _id (Some d) w =
           update_by_params find_func session_obj model_cls fields params d
             (with_dicts w (<[d := payload]> (dicts w)))).
Proof.
  intros Hd Hm. exists (removal (VDatetime (now (store w))) ∪ m).
  split; [apply removal_merge_removed|].
  split; [apply removal_merge_removed_at|].
  split; [apply removal_merge_other|].
  assert (Hrun : delete_by_params find_func session_obj model_cls fields params
                   (Some d) w =
                 update_by_params find_func session_obj model_cls fields params d
                   (with_dicts w
                      (<[d := removal (VDatetime (now (store w))) ∪ m]> (dicts w)))).
  { rewrite delete_by_params_some_data.
    - by rewrite (dict_at_some _ _ _ Hd).
    - rewrite (dict_at_some _ _ _ Hd). by rewrite map_size_non_empty_iff. }
  split; [done|]. by intros _id ->.
Qed.

Lemma delete_overrides_removal_keys_witness :
  ∃ payload : gmap string value,
    payload !! "removed"%string = Some (VBool true)
    ∧ payload !! "removed_at"%string = Some (VDatetime 1000)
    ∧ payload !! "note"%string = Some (VStr "x")
    ∧ delete_by_id find_by_id (accepting_session 0) User user_fields (VInt 7)
        (Some 1%positive) world0 =
      update_by_params find_by_id (accepting_session 0) User user_fields
        (id_params (VInt 7)) 1%positive
        (with_dicts world0 (<[1%positive := payload]> (dicts world0))).
Proof.
  destruct (delete_overrides_removal_keys find_by_id (accepting_session 0) User
              user_fields (id_params (VInt 7)) 1%positive
              {[ "removed"%string := VBool false; "note"%string := VStr "x";
                 "name"%string := VStr "b" ]}
              world0)
    as (payload & Hremoved & Hat & Hother & _ & Hid).
  - vm_compute. reflexivity.
  - intros Hempty.
    apply (f_equal (fun m : gmap string value => m !! "note"%string)) in Hempty.
    vm_compute in Hempty. discriminate Hempty.
  - exists payload. split; [exact Hremoved|]. split; [exact Hat|].
    split; [|exact (Hid (VInt 7) eq_refl)].
    rewrite Hother by done. vm_compute. reflexivity.
Defined.

(** C6.  [update_by_id] is [update_by_params] at the filter
    [[{"id": {"$eq": _id}}]], and [delete_by_id] is [delete_by_params] at
    that filter: same result or error and same final world, from every
    world. *)
Theorem by_id_is_by_params_at_id_filter
    (find_func : FindFunc) (session_obj : Session) (model_cls : Model)
    (fields : list string) (_id : value) (data : loc) (extra : option loc)
    (w : World) :
  update_by_id find_func session_obj model_cls fields _id data w =
    update_by_params find_func session_obj model_cls fields
      (VList [VMap [("id"%string, VMap [("$eq"%string, _id)])]]) data w
  ∧ delete_by_id find_func session_obj model_cls fields _id extra w =
      delete_by_params find_func session_obj model_cls fields
        (VList [VMap [("id"%string, VMap [("$eq"%string, _id)])]]) extra w.
Proof. split; reflexivity. Qed.

(** C7, as the claim has it, fails.  With the whitelist [["name"]], which
    holds neither removal field, and the extra data
    [{"removed": False, "note": "x", "name": "b"}], deleting user 7 in
    [world0] succeeds and renames the user from ["a"] to ["b"]: the extra
    data of a delete goes through the whitelist like any update payload. *)
Lemma delete_with_extra_data_changes_listed_fields :
  ¬ (∀ (find_func : FindFunc) (session_obj : Session) (model_cls : Model)
       (fields : list string) (params : value) (extra : option loc) (w : World)
       (l : loc) (attrs : gmap string value) (s1 : Store),
       "removed"%string ∉ fields →
       "removed_at"%string ∉ fields →
       find_func session_obj model_cls params (store w) = (Ok (VObj l), s1) →
       objects s1 !! l = Some attrs →
       add_raises session_obj (VObj l) s1 = None →
       ∃ w', delete_by_params find_func session_obj model_cls fields params extra w
               = (Ok (VObj l), w')
             ∧ objects (store w') !! l = Some attrs).
Proof.
  intros Hclaim.
  destruct (Hclaim find_by_id (accepting_session 0) User ["name"%string]
              (id_params (VInt 7)) (Some 1%positive) world0 1%positive
              {[ "id"%string := VInt 7; "name"%string := VStr "a";
                 "removed"%string := VBool false ]}
              (store world0))
    as (w' & Hrun & Hattrs).
  - rewrite not_elem_of_cons. split; [done|apply not_elem_of_nil].
  - rewrite not_elem_of_cons. split; [done|apply not_elem_of_nil].
  - vm_compute. reflexivity.
  - vm_compute. reflexivity.
  - reflexivity.
  - apply (f_equal snd) in Hrun. cbn [snd] in Hrun. subst w'.
    apply (f_equal (fun o => o ≫= (fun a : gmap string value => a !! "name"%string)))
      in Hattrs.
    vm_compute in Hattrs. discriminate Hattrs.
Qed.

(** C7, amended.  Let the whitelist hold neither ["removed"] nor
    ["removed_at"], let [find_func] locate an instance and the session
    take it.  A delete without extra data, or with extra data none of
    whose keys is whitelisted, returns the instance and leaves the
    attributes of every instance as [find_func] left them; the instance is
    put on the session's pending list all the same. *)
Theorem delete_without_removal_fields_changes_nothing
    (find_func : FindFunc) (session_obj : Session) (model_cls : Model)
    (fields : list string) (params : value) (extra : option loc) (w : World)
    (l : loc) (attrs : gmap string value) (s1 : Store) :
  "removed"%string ∉ fields →
  "removed_at"%string ∉ fields →
  (∀ (d : loc) (f : string), extra = Some d → f ∈ fields → dict_at w d !! f = None) →
  find_func session_obj model_cls params (store w) = (Ok (VObj l), s1) →
  objects s1 !! l = Some attrs →
  add_raises session_obj (VObj l) s1 = None →
  ∃ w', delete_by_params find_func session_obj model_cls fields params extra w
          = (Ok (VObj l), w')
        ∧ objects (store w') = objects s1
        ∧ pending (store w') = pending s1 ++ [(session_id session_obj, VObj l)]
        ∧ (∀ _id, params = id_params _id →
             delete_by_id find_func session_obj model_cls fields _id extra w
               = (Ok (VObj l), w')).
Proof.
  intros Hremoved Hat Hextra Hfind Hl Hadd.
  assert (Hnone : ∀ f : string, f ∈ fields → delete_payload w extra !! f = None).
  { intros f Hf.
    assert (f ≠ "removed"%string) by (intros ->; done).
    assert (f ≠ "removed_at"%string) by (intros ->; done).
    unfold delete_payload. destruct extra as [d|]; [|by apply removal_other].
    case_bool_decide; [by apply removal_other|].
    rewrite removal_merge_other by done. by eapply Hextra. }
  assert (Hstore : store_assigned s1 l model_cls (delete_payload w extra) fields
                     attrs = s1).
  { unfold store_assigned. rewrite assigned_untouched by done.
    rewrite insert_id by done. apply with_objects_id. }
  assert (Hrun : delete_by_params find_func session_obj model_cls fields params
                   extra w =
                 add_and_return session_obj (VObj l)
                   (with_store (delete_world w extra) s1)).
  { rewrite delete_by_params_run.
    rewrite (update_by_params_found find_func session_obj model_cls fields params
               (delete_target w extra) (delete_world w extra) l attrs s1 Hfind Hl).
    rewrite dict_at_delete_world, Hstore.
    by rewrite assign_all_nothing. }
  unfold add_and_return in Hrun. cbn [store with_store] in Hrun.
  rewrite Hadd in Hrun.
  eexists. split; [exact Hrun|].
  split; [done|]. split; [done|]. by intros _id ->.
Qed.

Lemma delete_without_removal_fields_changes_nothing_witness :
  ∃ w', delete_by_params find_by_id (accepting_session 0) User ["name"%string]
          (id_params (VInt 7)) None world0
          = (Ok (VObj 1%positive), w')
        ∧ objects (store w') = objects (store world0).
Proof.
  destruct (delete_without_removal_fields_changes_nothing find_by_id
              (accepting_session 0) User ["name"%string] (id_params (VInt 7))
              None world0 1%positive
              {[ "id"%string := VInt 7; "name"%string := VStr "a";
                 "removed"%string := VBool false ]}
              (store world0))
    as (w' & Hrun & Hobjects & _).
  - rewrite not_elem_of_cons. split; [done|apply not_elem_of_nil].
  - rewrite not_elem_of_cons. split; [done|apply not_elem_of_nil].
  - intros d f Hd. discriminate Hd.
  - vm_compute. reflexivity.
  - vm_compute. reflexivity.
  - reflexivity.
  - exists w'. split; [exact Hrun|exact Hobjects].
Defined.

(** C8.  An error of a collaborator reaches the caller as it is.  If
    [find_func] raises [e], then [update_by_params], [update_by_id],
    [delete_by_params] and [delete_by_id] raise [e], with the store as
    [find_func] left it.  If the loop of assignments completes, so that
    the session's [add] is called, and [add] raises [e] on the instance
    it is given, then [save], [update_by_params] and [delete_by_params]
    raise [e]. *)
Theorem collaborator_errors_propagate
    (find_func : FindFunc) (session_obj : Session) (model_cls : Model)
    (fields : list string) (params : value) (data : loc) (extra : option loc)
    (w : World) (e : exn) :
  (∀ s1 : Store,
     find_func session_obj model_cls params (store w) = (Raise e, s1) →
     update_by_params find_func session_obj model_cls fields params data w
       = (Raise e, with_store w s1)
     ∧ (∃ w', delete_by_params find_func session_obj model_cls fields params extra w
                = (Raise e, w')
              ∧ store w' = s1)
     ∧ (∀ _id, params = id_params _id →
          update_by_id find_func session_obj model_cls fields _id data w
            = (Raise e, with_store w s1)
          ∧ ∃ w', delete_by_id find_func session_obj model_cls fields _id extra w
                    = (Raise e, w')
                  ∧ store w' = s1))
  ∧ (∀ (l : loc) (attrs : gmap string value) (s1 : Store),
       find_func session_obj model_cls params (store w) = (Ok (VObj l), s1) →
       objects s1 !! l = Some attrs →
       (fst (assign_all model_cls (dict_at w data) fields attrs) = Ok tt →
        add_raises session_obj (VObj l)
          (store_assigned s1 l model_cls (dict_at w data) fields attrs) = Some e →
        fst (update_by_params find_func session_obj model_cls fields params data w)
          = Raise e)
       ∧ (fst (assign_all model_cls (delete_payload w extra) fields attrs) = Ok tt →
          add_raises session_obj (VObj l)
            (store_assigned s1 l model_cls (delete_payload w extra) fields attrs)
            = Some e →
          fst (delete_by_params find_func session_obj model_cls fields params extra w)
            = Raise e))
  ∧ (fst (assign_all model_cls (dict_at w data) fields (defaults model_cls)) = Ok tt →
     add_raises session_obj (VObj (fresh (dom (objects (store w)))))
       (store_assigned (store w) (fresh (dom (objects (store w)))) model_cls
          (dict_at w data) fields (defaults model_cls)) = Some e →
     fst (save session_obj model_cls fields data w) = Raise e).
Proof.
  split; [|split].
  - intros s1 Hfind.
    assert (Hdel : ∃ w', delete_by_params find_func session_obj model_cls fields
                           params extra w = (Raise e, w')
                         ∧ store w' = s1).
    { rewrite delete_by_params_run. eexists.
      split; [by apply update_by_params_find_raises|reflexivity]. }
    split; [by apply update_by_params_find_raises|].
    split; [done|]. intros _id ->.
    split; [by apply update_by_params_find_raises|done].
  - intros l attrs s1 Hfind Hl. split; intros Hloop Hadd.
    + rewrite (update_by_params_found _ _ _ _ _ _ _ _ _ _ Hfind Hl).
      rewrite Hloop, after_loop_ok.
      unfold add_and_return. cbn [store with_store]. by rewrite Hadd.
    + rewrite delete_by_params_run.
      rewrite (update_by_params_found find_func session_obj model_cls fields params
                 (delete_target w extra) (delete_world w extra) l attrs s1 Hfind Hl).
      rewrite dict_at_delete_world, Hloop, after_loop_ok.
      unfold add_and_return. cbn [store with_store]. by rewrite Hadd.
  - intros Hloop Hadd. rewrite save_run. cbn zeta.
    rewrite Hloop, after_loop_ok.
    unfold add_and_return. cbn [store with_store]. by rewrite Hadd.
Qed.

Lemma collaborator_errors_propagate_witness :
  update_by_params find_broken (accepting_session 0) User user_fields
      (id_params (VInt 7)) 1%positive world0
    = (Raise (OtherError "OperationalError"), world0)
  ∧ fst (save (refusing_session 0 (OtherError "InvalidRequestError")) User
           user_fields 1%positive world0)
    = Raise (OtherError "InvalidRequestError")
  ∧ fst (update_by_params find_by_id
           (refusing_session 0 (OtherError "InvalidRequestError")) User
           user_fields (id_params (VInt 7)) 1%positive world0)
    = Raise (OtherError "InvalidRequestError").
Proof.
  split; [|split].
  - refine (proj1 (proj1 (collaborator_errors_propagate find_broken
                            (accepting_session 0) User user_fields
                            (id_params (VInt 7)) 1%positive None world0
                            (OtherError "OperationalError"))
                     (store world0) _)).
    reflexivity.
  - refine (proj2 (proj2 (collaborator_errors_propagate find_by_id
                            (refusing_session 0 (OtherError "InvalidRequestError"))
                            User user_fields (id_params (VInt 7)) 1%positive None
                            world0 (OtherError "InvalidRequestError"))) _ _).
    + vm_compute. reflexivity.
    + reflexivity.
  - refine (proj1 (proj1 (proj2 (collaborator_errors_propagate find_by_id
                            (refusing_session 0 (OtherError "InvalidRequestError"))
                            User user_fields (id_params (VInt 7)) 1%positive None
                            world0 (OtherError "InvalidRequestError")))
                     1%positive
                     {[ "id"%string := VInt 7; "name"%string := VStr "a";
                        "removed"%string := VBool false ]}
                     (store world0) _ _) _ _).
    + vm_compute. reflexivity.
    + vm_compute. reflexivity.
    + vm_compute. reflexivity.
    + reflexivity.
Defined.

(** C9.  A non-empty dictionary passed as extra data is written to in
    place.  However the call ends, with the instance returned, with
    [NoResultFound] or with an error of a collaborator, the caller's own
    dictionary afterwards holds [removed = True] and [removed_at = T], [T]
    being the clock at the moment of the call, next to the keys it had. *)
Theorem delete_mutates_callers_dict
    (find_func : FindFunc) (session_obj : Session) (model_cls : Model)
    (fields : list string) (params : value) (d : loc)
    (m : gmap string value) (w : World) :
  dicts w !! d = Some m →
  m ≠ ∅ →
  ∃ m' : gmap string value,
    dicts (snd (delete_by_params find_func session_obj model_cls fields params
                  (Some d) w)) !! d = Some m'
    ∧ (∀ _id, params = id_params _id →
         dicts (snd (delete_by_id find_func session_obj model_cls fields _id
                       (Some d) w)) !! d = Some m')
    ∧ m' !! "removed"%string = Some (VBool true)
    ∧ m' !! "removed_at"%string = Some (VDatetime (now (store w)))
    ∧ (∀ k : string,
         k ≠ "removed"%string → k ≠ "removed_at"%string → m' !! k = m !! k).
Proof.
  intros Hd Hm. exists (removal (VDatetime (now (store w))) ∪ m).
  assert (Hafter : dicts (snd (delete_by_params find_func session_obj model_cls
                                 fields params (Some d) w)) !! d
                   = Some (removal (VDatetime (now (store w))) ∪ m)).
  { rewrite delete_by_params_some_data.
    - rewrite update_by_params_keeps_dicts. cbn.
      by rewrite lookup_insert_eq, (dict_at_some _ _ _ Hd).
    - rewrite (dict_at_some _ _ _ Hd). by rewrite map_size_non_empty_iff. }
  split; [done|]. split; [by intros _id ->|].
  split; [apply removal_merge_removed|].
  split; [apply removal_merge_removed_at|apply removal_merge_other].
Qed.

Lemma delete_mutates_callers_dict_witness :
  ∃ m' : gmap string value,
    dicts (snd (delete_by_params find_by_id (accepting_session 0) User user_fields
                  (id_params (VInt 7)) (Some 1%positive) world0)) !! 1%positive
      = Some m'
    ∧ m' !! "removed"%string = Some (VBool true)
    ∧ m' !! "removed_at"%string = Some (VDatetime 1000).
Proof.
  destruct (delete_mutates_callers_dict find_by_id (accepting_session 0) User
              user_fields (id_params (VInt 7)) 1%positive
              {[ "removed"%string := VBool false; "note"%string := VStr "x";
                 "name"%string := VStr "b" ]}
              world0)
    as (m' & Hafter & _ & Hremoved & Hat & _).
  - vm_compute. reflexivity.
  - intros Hempty.
    apply (f_equal (fun m : gmap string value => m !! "note"%string)) in Hempty.
    vm_compute in Hempty. discriminate Hempty.
  - exists m'. split; [exact Hafter|]. split; [exact Hremoved|exact Hat].
Defined.

(** C10.  An empty dictionary passed as extra data counts as no extra
    data: the call is the call without the argument, the payload is a new
    dictionary holding the two removal keys, and the caller's dictionary
    is still empty afterwards. *)
Theorem delete_with_empty_data_is_delete_without
    (find_func : FindFunc) (session_obj : Session) (model_cls : Model)
    (fields : list string) (params : value) (d : loc) (w : World) :
  dicts w !! d = Some ∅ →
  delete_by_params find_func session_obj model_cls fields params (Some d) w
    = delete_by_params find_func session_obj model_cls fields params None w
  ∧ (∀ _id,
       delete_by_id find_func session_obj model_cls fields _id (Some d) w
         = delete_by_id find_func session_obj model_cls fields _id None w)
  ∧ (let d' := fresh (dom (dicts w)) in
     d' ≠ d
     ∧ delete_by_params find_func session_obj model_cls fields params (Some d) w
         = update_by_params find_func session_obj model_cls fields params d'
             (with_dicts w
                (<[d' := removal (VDatetime (now (store w)))]> (dicts w))))
  ∧ dicts (snd (delete_by_params find_func session_obj model_cls fields params
                  (Some d) w)) !! d = Some ∅.
Proof.
  intros Hd.
  assert (Hsize : size (dict_at w d) = 0%nat).
  { rewrite (dict_at_some _ _ _ Hd). apply map_size_empty. }
  assert (Hfresh : fresh (dom (dicts w)) ≠ d).
  { intros Heq. pose proof (is_fresh (dom (dicts w))) as Hnot.
    rewrite Heq in Hnot. apply Hnot, elem_of_dom. eauto. }
  split; [by apply delete_by_params_empty_data|].
  split; [intros _id; by apply delete_by_params_empty_data|].
  split.
  - cbn zeta. split; [done|].
    rewrite delete_by_params_empty_data by done. apply delete_by_params_no_data.
  - rewrite delete_by_params_empty_data, delete_by_params_no_data by done.
    cbn zeta. rewrite update_by_params_keeps_dicts. cbn.
    by rewrite lookup_insert_ne.
Qed.

Lemma delete_with_empty_data_is_delete_without_witness :
  delete_by_params find_by_id (accepting_session 0) User user_fields
      (id_params (VInt 7)) (Some 2%positive) world0
    = delete_by_params find_by_id (accepting_session 0) User user_fields
        (id_params (VInt 7)) None world0
  ∧ dicts (snd (delete_by_params find_by_id (accepting_session 0) User user_fields
                  (id_params (VInt 7)) (Some 2%positive) world0)) !! 2%positive
      = Some ∅.
Proof.
  destruct (delete_with_empty_data_is_delete_without find_by_id
              (accepting_session 0) User user_fields (id_params (VInt 7))
              2%positive world0)
    as (Hsame & _ & _ & Hafter).
  - vm_compute. reflexivity.
  - split; [exact Hsame|exact Hafter].
Defined.

(** ** The scenario of the specification

    Whitelist [["name"; "removed"; "removed_at"]], one user
    [{id: 7, name: "a", removed: False}], clock at 1000:
    [delete_by_id(find, W, 7)] returns the user with its name kept,
    [removed] set and [removed_at] stamped with the clock. *)
Example soft_delete_scenario :
  let r := delete_by_id find_by_id (accepting_session 0) User user_fields
             (VInt 7) None world0 in
  fst r = Ok (VObj 1%positive)
  ∧ objects (store (snd r)) !! 1%positive =
      Some {[ "id"%string := VInt 7; "name"%string := VStr "a";
              "removed"%string := VBool true;
              "removed_at"%string := VDatetime 1000 ]}
  ∧ pending (store (snd r)) = [(0%nat, VObj 1%positive)].
Proof. vm_compute. done. Qed.

(** * Further properties of the five functions *)

(** ** More on the assignment loop *)

Lemma all_stored_same_names cls D fields fields' :
  (∀ f : string, f ∈ fields ↔ f ∈ fields') →
  all_stored cls D fields → all_stored cls D fields'.
Proof. intros Hsame Hall f v Hf. apply Hall. by apply Hsame. Qed.

Lemma assigned_lookup cls D fields attrs (f : string) :
  all_stored cls D fields →
  assigned cls D fields attrs !! f =
    if decide (f ∈ fields)
    then match D !! f with Some v => Some v | None => attrs !! f end
    else attrs !! f.
Proof.
  intros Hall.
  pose proof (all_stored_none_replaced _ _ _ Hall) as Hnone.
  case_decide as Hf; [|by apply assigned_notin].
  destruct (D !! f) as [v|] eqn:HD.
  - by apply assigned_present.
  - by apply assigned_absent.
Qed.

Lemma assign_all_same_names cls D fields fields' attrs :
  (∀ f : string, f ∈ fields ↔ f ∈ fields') →
  all_stored cls D fields →
  assign_all cls D fields attrs = assign_all cls D fields' attrs.
Proof.
  intros Hsame Hall.
  pose proof (all_stored_same_names _ _ _ _ Hsame Hall) as Hall'.
  rewrite (surjective_pairing (assign_all cls D fields attrs)).
  rewrite (surjective_pairing (assign_all cls D fields' attrs)).
  rewrite !assign_all_stored_ok by done. f_equal.
  apply map_eq. intros f.
  pose proof (assigned_lookup cls D fields attrs f Hall) as H1.
  pose proof (assigned_lookup cls D fields' attrs f Hall') as H2.
  unfold assigned in H1, H2. rewrite H1, H2.
  destruct (decide (f ∈ fields)) as [Hf|Hf], (decide (f ∈ fields')) as [Hf'|Hf'];
    try done.
  - by apply Hsame in Hf.
  - by apply Hsame in Hf'.
Qed.



(** With no whitelisted key in the payload the loop does nothing, on any
    value. *)
Lemma assign_loop_nothing (cls : Model) (obj : value) (fields : list string)
    (data : loc) (w : World) :
  (∀ f : string, f ∈ fields → dict_at w data !! f = None) →
  assign_loop cls obj fields data w = (Ok tt, w).
Proof.
  induction fields as [|f fields IH]; intros Hnone; [done|].
  unfold assign_loop in *. cbn [for_each].
  unfold mbind at 1, M_bind at 1. unfold mbind at 1, M_bind at 1.
  unfold dict_contains at 1.
  rewrite (Hnone f) by (apply elem_of_cons; by left).
  rewrite bool_decide_eq_false_2 by (intros [? ?]; congruence).
  unfold mret at 1, M_ret at 1. apply IH.
  intros g Hg. apply Hnone, elem_of_cons. by right.
Qed.

(** On a value that is no instance the loop stops at the first whitelisted
    name the payload has. *)
Lemma assign_loop_not_instance (cls : Model) (obj : value) (pre rest : list string)
    (f : string) (x : value) (data : loc) (w : World) :
  not_instance obj →
  (∀ g : string, g ∈ pre → dict_at w data !! g = None) →
  dict_at w data !! f = Some x →
  assign_loop cls obj (pre ++ f :: rest) data w = (Raise (non_instance_error f), w).
Proof.
  intros Hobj Hpre Hf. induction pre as [|g pre IH].
  - unfold assign_loop. cbn [app for_each].
    unfold mbind at 1, M_bind at 1. unfold mbind at 1, M_bind at 1.
    unfold dict_contains at 1. rewrite Hf.
    rewrite bool_decide_eq_true_2 by eauto.
    unfold mbind at 1, M_bind at 1. unfold dict_getitem at 1. rewrite Hf.
    unfold setattr, non_instance_error.
    destruct obj; try done; by destruct (String.eqb f "__class__").
  - unfold assign_loop in *. cbn [app for_each].
    unfold mbind at 1, M_bind at 1. unfold mbind at 1, M_bind at 1.
    unfold dict_contains at 1.
    rewrite (Hpre g) by (apply elem_of_cons; by left).
    rewrite bool_decide_eq_false_2 by (intros [? ?]; congruence).
    unfold mret at 1, M_ret at 1. apply IH.
    intros h Hh. apply Hpre, elem_of_cons. by right.
Qed.

(** The loop up to an assignment that raises: what was assigned before
    stays, what comes after is not looked at. *)
Lemma assign_all_refused cls D (pre rest : list string) (f : string)
    (v : value) (e : exn) attrs :
  all_stored cls D pre →
  D !! f = Some v →
  classify cls f v = Refused e →
  assign_all cls D (pre ++ f :: rest) attrs = (Raise e, assigned cls D pre attrs).
Proof.
  unfold assigned. intros Hpre Hf Hc. revert attrs.
  induction pre as [|g pre IH]; intros attrs.
  - cbn. by rewrite Hf, Hc.
  - pose proof (all_stored_tail _ _ _ _ Hpre) as Htail.
    cbn. destruct (D !! g) as [x|] eqn:Hg; [|by apply IH].
    rewrite (Hpre g x) by (done || apply elem_of_cons; by left). by apply IH.
Qed.

(** ** Components the loop leaves alone *)






(** ** The update path on any truthy result of [find_func] *)

Lemma update_by_params_truthy (find_func : FindFunc) (session_obj : Session)
    (model_cls : Model) (fields : list string) (params : value) (data : loc)
    (w : World) (v : value) (s1 : Store) :
  find_func session_obj model_cls params (store w) = (Ok v, s1) →
  truthy v = true →
  update_by_params find_func session_obj model_cls fields params data w =
    after_loop session_obj v
      (fst (assign_loop model_cls v fields data (with_store w s1)))
      (snd (assign_loop model_cls v fields data (with_store w s1))).
Proof.
  intros Hfind Hv. unfold update_by_params.
  erewrite bind_ok by (by apply call_ok).
  rewrite Hv. cbn [negb]. erewrite bind_ok by reflexivity.
  change (for_each fields _) with (assign_loop model_cls v fields data).
  apply after_loop_run, surjective_pairing.
Qed.

(** X1.  When every whitelisted key of the payload is an ordinary
    attribute that the model lets be assigned, the whitelist counts as a
    set of names: two whitelists with the same names, in any order and
    with any repetitions, give the same [save], and the same
    [update_by_params] on an instance that [find_func] located.  (When an
    assignment raises, the order decides what was assigned before it.) *)
Theorem whitelist_is_a_set_of_names
    (find_func : FindFunc) (session_obj : Session) (model_cls : Model)
    (fields fields' : list string) (params : value) (data : loc) (w : World) :
  (∀ f : string, f ∈ fields ↔ f ∈ fields') →
  all_stored model_cls (dict_at w data) fields →
  save session_obj model_cls fields data w
    = save session_obj model_cls fields' data w
  ∧ (∀ (l : loc) (attrs : gmap string value) (s1 : Store),
       find_func session_obj model_cls params (store w) = (Ok (VObj l), s1) →
       objects s1 !! l = Some attrs →
       update_by_params find_func session_obj model_cls fields params data w
         = update_by_params find_func session_obj model_cls fields' params data w).
Proof.
  intros Hsame Hall. split.
  - rewrite !save_run. cbn zeta. unfold store_assigned, assigned.
    by rewrite (assign_all_same_names _ _ fields fields').
  - intros l attrs s1 Hfind Hl.
    rewrite !(update_by_params_found _ _ _ _ _ _ _ _ _ _ Hfind Hl).
    unfold store_assigned, assigned.
    by rewrite (assign_all_same_names _ _ fields fields').
Qed.

Lemma whitelist_is_a_set_of_names_witness :
  save (accepting_session 0) User ["name"; "removed"; "name"]%string 1%positive world0
    = save (accepting_session 0) User ["removed"; "name"]%string 1%positive world0.
Proof.
  refine (proj1 (whitelist_is_a_set_of_names find_by_id (accepting_session 0) User
                   ["name"; "removed"; "name"]%string ["removed"; "name"]%string
                   VNone 1%positive world0 _ _)).
  - intros f. rewrite !elem_of_cons, !elem_of_nil. tauto.
  - intros f v Hf _. rewrite !elem_of_cons, elem_of_nil in Hf.
    destruct Hf as [->|[->|[->|[]]]]; reflexivity.
Defined.








(** ** The payload of a delete, key by key *)

Lemma delete_payload_removed (w : World) (extra : option loc) :
  delete_payload w extra !! "removed"%string = Some (VBool true).
Proof.
  unfold delete_payload. destruct extra as [d|]; [|apply removal_removed].
  case_bool_decide; [apply removal_removed|apply removal_merge_removed].
Qed.

Lemma delete_payload_removed_at (w : World) (extra : option loc) :
  delete_payload w extra !! "removed_at"%string
    = Some (VDatetime (now (store w))).
Proof.
  unfold delete_payload. destruct extra as [d|]; [|apply removal_removed_at].
  case_bool_decide; [apply removal_removed_at|apply removal_merge_removed_at].
Qed.

Lemma delete_by_params_found (find_func : FindFunc) (session_obj : Session)
    (model_cls : Model) (fields : list string) (params : value)
    (extra : option loc) (w : World) (l : loc) (attrs : gmap string value)
    (s1 : Store) :
  find_func session_obj model_cls params (store w) = (Ok (VObj l), s1) →
  objects s1 !! l = Some attrs →
  objects (store (snd (delete_by_params find_func session_obj model_cls fields
                         params extra w)))
    = <[l := assigned model_cls (delete_payload w extra) fields attrs]> (objects s1).
Proof.
  intros Hfind Hl. rewrite delete_by_params_run.
  rewrite (update_by_params_found find_func session_obj model_cls fields params
             (delete_target w extra) (delete_world w extra) l attrs s1 Hfind Hl).
  by rewrite after_loop_objects, dict_at_delete_world.
Qed.

(** X6.  When the whitelist has the removal fields and every whitelisted
    key of the composed payload is an ordinary attribute that the model
    lets be assigned, the soft delete takes effect, whatever the extra
    data says: on the instance [find_func] located, [removed] is [True]
    if ["removed"] is whitelisted, and [removed_at] is the clock as it was
    when the call began, even if the clock moved while [find_func] ran, if
    ["removed_at"] is whitelisted. *)
Theorem soft_delete_sets_removal_fields
    (find_func : FindFunc) (session_obj : Session) (model_cls : Model)
    (fields : list string) (params : value) (extra : option loc) (w : World)
    (l : loc) (attrs : gmap string value) (s1 : Store) :
  all_stored model_cls (delete_payload w extra) fields →
  find_func session_obj model_cls params (store w) = (Ok (VObj l), s1) →
  objects s1 !! l = Some attrs →
  ∃ attrs' : gmap string value,
    objects (store (snd (delete_by_params find_func session_obj model_cls fields
                           params extra w))) !! l = Some attrs'
    ∧ ("removed"%string ∈ fields → attrs' !! "removed"%string = Some (VBool true))
    ∧ ("removed_at"%string ∈ fields →
       attrs' !! "removed_at"%string = Some (VDatetime (now (store w)))).
Proof.
  intros Hall Hfind Hl. eexists. split; [|split].
  - rewrite (delete_by_params_found _ _ _ _ _ _ _ _ _ _ Hfind Hl).
    apply lookup_insert_eq.
  - intros Hin. apply assigned_present; [done..|apply delete_payload_removed].
  - intros Hin. apply assigned_present; [done..|apply delete_payload_removed_at].
Qed.

Lemma soft_delete_sets_removal_fields_witness :
  ∃ attrs' : gmap string value,
    objects (store (snd (delete_by_params find_by_id_slow (accepting_session 0)
                           User user_fields (id_params (VInt 7)) (Some 1%positive)
                           world0))) !! 1%positive = Some attrs'
    ∧ attrs' !! "removed"%string = Some (VBool true)
    ∧ attrs' !! "removed_at"%string = Some (VDatetime 1000).
Proof.
  destruct (soft_delete_sets_removal_fields find_by_id_slow (accepting_session 0)
              User user_fields (id_params (VInt 7)) (Some 1%positive) world0
              1%positive
              {[ "id"%string := VInt 7; "name"%string := VStr "a";
                 "removed"%string := VBool false ]}
              (mkStore (objects (store world0)) [] 1005))
    as (attrs' & Hl & Hremoved & Hat).
  - intros f v Hf _. unfold user_fields in Hf.
    rewrite !elem_of_cons, elem_of_nil in Hf.
    destruct Hf as [->|[->|[->|[]]]]; reflexivity.
  - vm_compute. reflexivity.
  - vm_compute. reflexivity.
  - exists attrs'. split; [exact Hl|]. split.
    + apply Hremoved. unfold user_fields. rewrite !elem_of_cons. tauto.
    + apply Hat. unfold user_fields. rewrite !elem_of_cons. tauto.
Defined.

(** X7.  The extra data of a delete is applied like the payload of an
    update.  When every whitelisted key of the composed payload is an
    ordinary attribute that the model lets be assigned, a whitelisted key
    of the caller's dictionary, other than the two removal keys, ends up
    on the located instance with the caller's value. *)
Theorem delete_applies_whitelisted_extra_data
    (find_func : FindFunc) (session_obj : Session) (model_cls : Model)
    (fields : list string) (params : value) (d : loc) (m : gmap string value)
    (w : World) (l : loc) (attrs : gmap string value) (s1 : Store)
    (f : string) (v : value) :
  all_stored model_cls (delete_payload w (Some d)) fields →
  dicts w !! d = Some m →
  m !! f = Some v →
  f ∈ fields →
  f ≠ "removed"%string →
  f ≠ "removed_at"%string →
  find_func session_obj model_cls params (store w) = (Ok (VObj l), s1) →
  objects s1 !! l = Some attrs →
  ∃ attrs' : gmap string value,
    objects (store (snd (delete_by_params find_func session_obj model_cls fields
                           params (Some d) w))) !! l = Some attrs'
    ∧ attrs' !! f = Some v.
Proof.
  intros Hall Hd Hm Hf Hne1 Hne2 Hfind Hl. eexists. split.
  - rewrite (delete_by_params_found _ _ _ _ _ _ _ _ _ _ Hfind Hl).
    apply lookup_insert_eq.
  - apply assigned_present; [done..|].
    unfold delete_payload. rewrite (dict_at_some _ _ _ Hd).
    rewrite bool_decide_eq_false_2.
    + by rewrite removal_merge_other.
    + rewrite map_size_non_empty_iff. intros ->. by rewrite lookup_empty in Hm.
Qed.

Lemma delete_applies_whitelisted_extra_data_witness :
  ∃ attrs' : gmap string value,
    objects (store (snd (delete_by_params find_by_id (accepting_session 0) User
                           user_fields (id_params (VInt 7)) (Some 1%positive)
                           world0))) !! 1%positive = Some attrs'
    ∧ attrs' !! "name"%string = Some (VStr "b").
Proof.
  refine (delete_applies_whitelisted_extra_data find_by_id (accepting_session 0)
            User user_fields (id_params (VInt 7)) 1%positive
            {[ "removed"%string := VBool false; "note"%string := VStr "x";
               "name"%string := VStr "b" ]}
            world0 1%positive
            {[ "id"%string := VInt 7; "name"%string := VStr "a";
               "removed"%string := VBool false ]}
            (store world0) "name"%string (VStr "b") _ _ _ _ _ _ _ _).
  - intros f v Hf _. unfold user_fields in Hf.
    rewrite !elem_of_cons, elem_of_nil in Hf.
    destruct Hf as [->|[->|[->|[]]]]; reflexivity.
  - vm_compute. reflexivity.
  - vm_compute. reflexivity.
  - unfold user_fields. rewrite !elem_of_cons. tauto.
  - discriminate.
  - discriminate.
  - vm_compute. reflexivity.
  - vm_compute. reflexivity.
Defined.



(** X9.  When [find_func] hands back something truthy that is no model
    instance (a list of rows, a number, a string), the update stops at
    the first whitelisted name the payload has: it raises [TypeError] if
    that name is [__class__] and [AttributeError] for any other name, with
    the store as [find_func] left it and nothing added to the session. *)
Theorem update_of_non_instance_raises
    (find_func : FindFunc) (session_obj : Session) (model_cls : Model)
    (pre rest : list string) (f : string) (x : value) (params : value)
    (data : loc) (w : World) (v : value) (s1 : Store) :
  find_func session_obj model_cls params (store w) = (Ok v, s1) →
  truthy v = true →
  not_instance v →
  (∀ g : string, g ∈ pre → dict_at w data !! g = None) →
  dict_at w data !! f = Some x →
  update_by_params find_func session_obj model_cls (pre ++ f :: rest) params data w
    = (Raise (if String.eqb f "__class__" then TypeError f else AttributeError f),
       with_store w s1).
Proof.
  intros Hfind Hv Hnot Hpre Hf.
  rewrite (update_by_params_truthy _ _ _ _ _ _ _ _ _ Hfind Hv).
  by rewrite (assign_loop_not_instance model_cls v pre rest f x data
                (with_store w s1)).
Qed.

Lemma update_of_non_instance_raises_witness :
  update_by_params find_all (accepting_session 0) User
      (["email"%string] ++ "name"%string :: ["removed"%string]) VNone
      1%positive world0
    = (Raise (AttributeError "name"), world0)
  ∧ update_by_params find_all (accepting_session 0) User
      ([] ++ "__class__"%string :: ["name"%string]) VNone 3%positive world_special
    = (Raise (TypeError "__class__"), world_special).
Proof.
  split.
  - refine (update_of_non_instance_raises find_all (accepting_session 0) User
              ["email"%string] ["removed"%string] "name"%string (VStr "b") VNone
              1%positive world0 (VList [VObj 1%positive]) (store world0)
              _ _ _ _ _).
    + vm_compute. reflexivity.
    + reflexivity.
    + exact I.
    + intros g Hg. apply list_elem_of_singleton in Hg as ->.
      vm_compute. reflexivity.
    + vm_compute. reflexivity.
  - refine (update_of_non_instance_raises find_all (accepting_session 0) User
              [] ["name"%string] "__class__"%string (VStr "b") VNone
              3%positive world_special (VList [VObj 1%positive])
              (store world_special) _ _ _ _ _).
    + vm_compute. reflexivity.
    + reflexivity.
    + exact I.
    + intros g Hg. by apply elem_of_nil in Hg.
    + vm_compute. reflexivity.
Defined.

(** X10.  When the payload has none of the whitelisted names (an empty
    whitelist, an empty payload, or no name in common), an update sets no
    attribute: whatever truthy value [find_func] returned is handed to
    the session's [add] in the store [find_func] left, and returned. *)
Theorem update_with_nothing_to_assign_only_registers
    (find_func : FindFunc) (session_obj : Session) (model_cls : Model)
    (fields : list string) (params : value) (data : loc)
    (w : World) (v : value) (s1 : Store) :
  (∀ f : string, f ∈ fields → dict_at w data !! f = None) →
  find_func session_obj model_cls params (store w) = (Ok v, s1) →
  truthy v = true →
  update_by_params find_func session_obj model_cls fields params data w =
    match add_raises session_obj v s1 with
    | Some e => (Raise e, with_store w s1)
    | None =>
        (Ok v,
         with_store w (with_pending s1 (pending s1 ++ [(session_id session_obj, v)])))
    end.
Proof.
  intros Hnone Hfind Hv.
  rewrite (update_by_params_truthy _ _ _ _ _ _ _ _ _ Hfind Hv).
  by rewrite (assign_loop_nothing model_cls v fields data (with_store w s1)).
Qed.

Lemma update_with_nothing_to_assign_only_registers_witness :
  update_by_params find_all (accepting_session 0) User [] VNone 1%positive world0
    = (Ok (VList [VObj 1%positive]),
       with_store world0
         (with_pending (store world0) [(0%nat, VList [VObj 1%positive])])).
Proof.
  refine (update_with_nothing_to_assign_only_registers find_all
            (accepting_session 0) User [] VNone 1%positive world0
            (VList [VObj 1%positive]) (store world0) _ _ _).
  - intros f Hf. by apply elem_of_nil in Hf.
  - vm_compute. reflexivity.
  - reflexivity.
Defined.



(** X12.  An assignment that raises leaves a partial update behind.  If
    the whitelisted keys of the payload before the name [f] are ordinary
    attributes the model lets be assigned, and assigning [f] raises [e]
    ([TypeError] for [__class__], whatever the class raises for a name it
    refuses), then [update_by_params] raises [e]: the names before [f]
    hold the payload's values on the located instance, the names after
    [f] were not looked at, and the instance was not added to the
    session. *)
Theorem refused_assignment_leaves_partial_update
    (find_func : FindFunc) (session_obj : Session) (model_cls : Model)
    (pre rest : list string) (f : string) (v : value) (e : exn)
    (params : value) (data : loc) (w : World)
    (l : loc) (attrs : gmap string value) (s1 : Store) :
  find_func session_obj model_cls params (store w) = (Ok (VObj l), s1) →
  objects s1 !! l = Some attrs →
  all_stored model_cls (dict_at w data) pre →
  dict_at w data !! f = Some v →
  classify model_cls f v = Refused e →
  ∃ attrs' : gmap string value,
    update_by_params find_func session_obj model_cls (pre ++ f :: rest) params
        data w
      = (Raise e, with_store w (with_objects s1 (<[l := attrs']> (objects s1))))
    ∧ (∀ (g : string) (x : value),
         g ∈ pre → dict_at w data !! g = Some x → attrs' !! g = Some x)
    ∧ (∀ g : string, g ∉ pre → attrs' !! g = attrs !! g).
Proof.
  intros Hfind Hl Hpre Hf Hc.
  exists (assigned model_cls (dict_at w data) pre attrs).
  split; [|split].
  - rewrite (update_by_params_found _ _ _ _ _ _ _ _ _ _ Hfind Hl).
    unfold store_assigned, assigned at 1.
    by rewrite (assign_all_refused _ _ pre rest f v e attrs Hpre Hf Hc).
  - intros g x Hg HD. by apply assigned_present.
  - intros g Hg. apply assigned_notin; [by apply all_stored_none_replaced|done].
Qed.

Lemma refused_assignment_leaves_partial_update_witness :
  ∃ attrs' : gmap string value,
    update_by_params find_by_id (accepting_session 0) User
        (["name"%string] ++ "__class__"%string :: ["removed"%string])
        (id_params (VInt 7)) 3%positive world_special
      = (Raise (TypeError "__class__"),
         with_store world_special
           (with_objects (store world_special)
              (<[1%positive := attrs']> (objects (store world_special)))))
    ∧ attrs' !! "name"%string = Some (VStr "n")
    ∧ attrs' !! "removed"%string = Some (VBool false).
Proof.
  destruct (refused_assignment_leaves_partial_update find_by_id
              (accepting_session 0) User ["name"%string] ["removed"%string]
              "__class__"%string (VStr "b") (TypeError "__class__")
              (id_params (VInt 7)) 3%positive world_special 1%positive
              {[ "id"%string := VInt 7; "name"%string := VStr "a";
                 "removed"%string := VBool false ]}
              (store world_special))
    as (attrs' & Hrun & Hpre & Hrest).
  - vm_compute. reflexivity.
  - vm_compute. reflexivity.
  - intros g x Hg _. apply list_elem_of_singleton in Hg as ->. reflexivity.
  - vm_compute. reflexivity.
  - reflexivity.
  - exists attrs'. split; [exact Hrun|]. split.
    + apply Hpre; [by apply list_elem_of_singleton|vm_compute; reflexivity].
    + rewrite Hrest; [vm_compute; reflexivity|].
      intros Hin. apply list_elem_of_singleton in Hin. discriminate Hin.
Defined.
